(** * Weighting: cost dispatch and node update of the suggestion search

    A shallow embedding of [native/jni/src/suggest/core/policy/weighting.cpp]
    (namespace [latinime]): the five switch tables over [CorrectionType]
    and [Weighting::addCostAndForwardInputIndex], the entry point that
    charges one correction to a search node and moves its input cursor.

    Conventions of the embedding:
    - [float] values are exact rationals ([Q]); [0.0f] is [0].  The file
      itself performs no floating-point arithmetic, it only returns the
      literal [0.0f] or hands policy results on; rounding, infinities and
      NaN of binary32 are outside the model.
    - [int] is [Z]; pointers are addresses ([Z], [0] is the null pointer)
      into a [Memory] that holds the nodes, the traverse session and the
      bigram cache.
    - the virtual methods of the abstract class [Weighting] are the
      fields of a record; they receive [const] pointers only, so they
      read the memory and write nothing but their explicit out-parameter
      ([inputStateG], [bigramCacheMap]). *)

From Stdlib Require Import ZArith QArith Lqa Bool.
From stdpp Require Import base decidable option gmap.

Local Open Scope Z_scope.

Abbreviation float := Q (only parsing).
Abbreviation ptr := Z (only parsing).

(** ** CorrectionType *)

(** Modelled from the spec: the enum [CorrectionType] is declared in
    [defines.h], which is not part of the sources at hand.  The ten named
    tags are the labels the switches of [weighting.cpp] mention;
    [CT_unknown raw] stands for any other value of the enum type, which
    the switches send to their [default] label. *)
Inductive CorrectionType : Set :=
  | CT_OMISSION
  | CT_ADDITIONAL_PROXIMITY
  | CT_SUBSTITUTION
  | CT_NEW_WORD
  | CT_MATCH
  | CT_COMPLETION
  | CT_TERMINAL
  | CT_SPACE_SUBSTITUTION
  | CT_INSERTION
  | CT_TRANSPOSITION
  | CT_unknown (raw : Z).

#[global] Instance CorrectionType_eq_dec : EqDecision CorrectionType.
Proof. solve_decision. Defined.

(** The ten tags of the taxonomy, as opposed to [CT_unknown]. *)
Definition inTaxonomy (correctionType : CorrectionType) : bool :=
  match correctionType with
  | CT_unknown _ => false
  | _ => true
  end.

(** ** Classification tables *)

(** [Weighting::isEditCorrection], lines 161-188. *)
Definition isEditCorrection (correctionType : CorrectionType) : bool :=
  match correctionType with
  | CT_OMISSION => true
  | CT_ADDITIONAL_PROXIMITY => false (* Should return true? *)
  | CT_SUBSTITUTION => false (* Should return true? *)
  | CT_NEW_WORD => false
  | CT_MATCH => false
  | CT_COMPLETION => false
  | CT_TERMINAL => false
  | CT_SPACE_SUBSTITUTION => false
  | CT_INSERTION => true
  | CT_TRANSPOSITION => true
  | _ => false
  end.

(** [Weighting::getForwardInputCount], lines 219-244. *)
Definition getForwardInputCount (correctionType : CorrectionType) : Z :=
  match correctionType with
  | CT_OMISSION => 0
  | CT_ADDITIONAL_PROXIMITY => 0
  | CT_SUBSTITUTION => 0
  | CT_NEW_WORD => 0
  | CT_MATCH => 1
  | CT_COMPLETION => 0
  | CT_TERMINAL => 0
  | CT_SPACE_SUBSTITUTION => 1
  | CT_INSERTION => 2
  | CT_TRANSPOSITION => 2
  | _ => 0
  end.

(** ** Nodes, session and memory *)

(** Modelled from the spec: [DicNode_InputStateG] is declared outside
    [weighting.cpp].  The input-state side channel is "an explicit output
    flag plus replacement cursor-advance value": [mNeedsToUpdateInputStateG]
    is the flag the source tests, [mInputIndex] the cursor the policy
    supplies with it. *)
Record DicNode_InputStateG : Type := {
  mNeedsToUpdateInputStateG : bool;
  mInputIndex : Z
}.

(** The assignment [inputStateG.mNeedsToUpdateInputStateG = b]. *)
Definition setNeedsToUpdateInputStateG (b : bool) (inputStateG : DicNode_InputStateG)
  : DicNode_InputStateG :=
  {| mNeedsToUpdateInputStateG := b; mInputIndex := mInputIndex inputStateG |}.

(** Modelled from the spec: the class [DicNode] ([dic_node.h]) is not part
    of the sources at hand.  The fields are those of the spec's search
    node: accumulated cost, input cursor, the two correction tallies, the
    terminal flag, the mark "derived from a swap", and the per-operation
    counters of the debug profiler. *)
Record DicNode : Type := {
  accumulatedCost : float;
  inputCursor : Z;
  editCount : Z;
  proximityCount : Z;
  isTerminal : bool;
  derivedFromSwap : bool;
  mProfiler : CorrectionType -> Z
}.

(** Modelled from the spec: [DicTraverseSession] is declared outside
    [weighting.cpp]; it holds the input sequence (touch points, each with
    its candidate key codes), the input length read by [getInputSize] and
    the dictionary handle read by [getOffsetDict]. *)
Record DicTraverseSession : Type := {
  mInputSequence : list (list Z);
  mInputSize : Z;
  mOffsetDict : ptr
}.

Definition getInputSize (traverseSession : DicTraverseSession) : Z :=
  mInputSize traverseSession.

Definition getOffsetDict (traverseSession : DicTraverseSession) : ptr :=
  mOffsetDict traverseSession.

(** What the pointers of one call point into: the nodes by address, the
    session behind [traverseSession], and the [hash_map_compat<int, int16_t>]
    behind [bigramCacheMap]. *)
Record Memory : Type := {
  nodes : gmap Z DicNode;
  session : DicTraverseSession;
  bigramCache : gmap Z Z
}.

Definition setBigramCache (cache : gmap Z Z) (m : Memory) : Memory :=
  {| nodes := nodes m; session := session m; bigramCache := cache |}.

Definition storeNode (dicNode : ptr) (node : DicNode) (m : Memory) : Memory :=
  {| nodes := <[dicNode := node]> (nodes m);
     session := session m;
     bigramCache := bigramCache m |}.

(** ** The policy interface *)

(** The virtual methods [weighting.cpp] calls on [weighting], with the
    arguments of the call sites.  Every node and session pointer they
    receive is a pointer to [const]: a method reads the memory, and hands
    back its result together with the out-parameter it was given, if any
    ([inputStateG] for [getMatchedCost], the cache for
    [getNewWordBigramCost]). *)
Record Weighting : Type := {
  getOmissionCost : Memory -> ptr -> ptr -> float;
  getAdditionalProximityCost : float;
  getSubstitutionCost : float;
  getNewWordCost : Memory -> ptr -> float;
  getMatchedCost :
    Memory -> ptr -> DicNode_InputStateG -> float * DicNode_InputStateG;
  getCompletionCost : Memory -> ptr -> float;
  getTerminalSpatialCost : Memory -> ptr -> float;
  getSpaceSubstitutionCost : float;
  getInsertionCost : Memory -> ptr -> ptr -> float;
  getTranspositionCost : Memory -> ptr -> ptr -> float;
  getNewWordBigramCost : Memory -> ptr -> float * gmap Z Z;
  getTerminalLanguageCost : Memory -> ptr -> float -> float;
  isProximityDicNode : Memory -> ptr -> bool;
  needsToNormalizeCompoundDistance : bool
}.

(** [Weighting::isProximityCorrection], lines 190-217. *)
Definition isProximityCorrection (weighting : Weighting)
    (correctionType : CorrectionType) (m : Memory) (dicNode : ptr) : bool :=
  match correctionType with
  | CT_OMISSION => false
  | CT_ADDITIONAL_PROXIMITY => false
  | CT_SUBSTITUTION => false
  | CT_NEW_WORD => false
  | CT_MATCH => isProximityDicNode weighting m dicNode
  | CT_COMPLETION => false
  | CT_TERMINAL => false
  | CT_SPACE_SUBSTITUTION => false
  | CT_INSERTION => false
  | CT_TRANSPOSITION => false
  | _ => false
  end.

(** [Weighting::getSpatialCost], lines 97-127.  The second component is
    [*inputStateG] on return: only [getMatchedCost] is handed the pointer. *)
Definition getSpatialCost (weighting : Weighting) (correctionType : CorrectionType)
    (m : Memory) (parentDicNode dicNode : ptr) (inputStateG : DicNode_InputStateG)
  : float * DicNode_InputStateG :=
  match correctionType with
  | CT_OMISSION => (getOmissionCost weighting m parentDicNode dicNode, inputStateG)
  | CT_ADDITIONAL_PROXIMITY => (getAdditionalProximityCost weighting, inputStateG)
  | CT_SUBSTITUTION => (getSubstitutionCost weighting, inputStateG)
  | CT_NEW_WORD => (getNewWordCost weighting m dicNode, inputStateG)
  | CT_MATCH => getMatchedCost weighting m dicNode inputStateG
  | CT_COMPLETION => (getCompletionCost weighting m dicNode, inputStateG)
  | CT_TERMINAL => (getTerminalSpatialCost weighting m dicNode, inputStateG)
  | CT_SPACE_SUBSTITUTION => (getSpaceSubstitutionCost weighting, inputStateG)
  | CT_INSERTION => (getInsertionCost weighting m parentDicNode dicNode, inputStateG)
  | CT_TRANSPOSITION =>
      (getTranspositionCost weighting m parentDicNode dicNode, inputStateG)
  | _ => (0%Q, inputStateG)
  end.

(** The spatial cost and the input state that the first step of the node
    update obtains: [getSpatialCost] run on a local [inputStateG] whose
    flag was cleared. *)
Definition spatialStep (weighting : Weighting) (correctionType : CorrectionType)
    (parentDicNode dicNode : ptr) (fresh : DicNode_InputStateG) (m : Memory)
  : float * DicNode_InputStateG :=
  getSpatialCost weighting correctionType m parentDicNode dicNode
    (setNeedsToUpdateInputStateG false fresh).

Section NodeUpdate.

(** [DicNodeUtils::getBigramNodeImprobability (dicRoot, node, bigramCacheMap)]
    lives in [dic_node_utils.cpp]; it is taken as given.  It reads the
    node, may fill the cache, and yields the improbability. *)
Variable getBigramNodeImprobability : ptr -> Memory -> ptr -> float * gmap Z Z.

(** The compile-time switch [DEBUG_DICT] of [defines.h]. *)
Variable DEBUG_DICT : bool.

(** The divisor [DicNode::addCost] derives from the input size when it
    normalizes; the spec fixes only that it is "a function of
    [inputSize]". *)
Variable normalizer : Z -> float.

(** [Weighting::getLanguageCost], lines 129-159.  The second component
    is the bigram cache on return. *)
Definition getLanguageCost (weighting : Weighting) (correctionType : CorrectionType)
    (m : Memory) (parentDicNode dicNode : ptr) : float * gmap Z Z :=
  match correctionType with
  | CT_OMISSION => (0%Q, bigramCache m)
  | CT_SUBSTITUTION => (0%Q, bigramCache m)
  | CT_NEW_WORD => getNewWordBigramCost weighting m parentDicNode
  | CT_MATCH => (0%Q, bigramCache m)
  | CT_COMPLETION => (0%Q, bigramCache m)
  | CT_TERMINAL =>
      let '(languageImprobability, cache) :=
        getBigramNodeImprobability (getOffsetDict (session m)) m dicNode in
      (getTerminalLanguageCost weighting (setBigramCache cache m) dicNode
         languageImprobability, cache)
  | CT_SPACE_SUBSTITUTION => (0%Q, bigramCache m)
  | CT_INSERTION => (0%Q, bigramCache m)
  | CT_TRANSPOSITION => (0%Q, bigramCache m)
  | _ => (0%Q, bigramCache m)
  end.

(** Modelled from the spec: the [PROF_*] macros of [dic_node_profiler.h]
    are "a per-operation counter": each bumps the counter of its tag in
    [node->mProfiler]. *)
Definition PROF (correctionType : CorrectionType) (node : DicNode) : DicNode :=
  {| accumulatedCost := accumulatedCost node;
     inputCursor := inputCursor node;
     editCount := editCount node;
     proximityCount := proximityCount node;
     isTerminal := isTerminal node;
     derivedFromSwap := derivedFromSwap node;
     mProfiler := fun t =>
       if bool_decide (t = correctionType)
       then mProfiler node t + 1 else mProfiler node t |}.

(** The static [profile], lines 29-69: one [PROF_*] per named tag when
    [DEBUG_DICT] is set, nothing otherwise. *)
Definition profile (correctionType : CorrectionType) (node : DicNode) : DicNode :=
  if DEBUG_DICT then
    match correctionType with
    | CT_OMISSION => PROF CT_OMISSION node
    | CT_ADDITIONAL_PROXIMITY => PROF CT_ADDITIONAL_PROXIMITY node
    | CT_SUBSTITUTION => PROF CT_SUBSTITUTION node
    | CT_NEW_WORD => PROF CT_NEW_WORD node
    | CT_MATCH => PROF CT_MATCH node
    | CT_COMPLETION => PROF CT_COMPLETION node
    | CT_TERMINAL => PROF CT_TERMINAL node
    | CT_SPACE_SUBSTITUTION => PROF CT_SPACE_SUBSTITUTION node
    | CT_INSERTION => PROF CT_INSERTION node
    | CT_TRANSPOSITION => PROF CT_TRANSPOSITION node
    | _ => node
    end
  else node.

(** Modelled from the spec: [DicNode::updateInputIndexG] applies the
    input-state override, "the policy-provided cursor update". *)
Definition updateInputIndexG (inputStateG : DicNode_InputStateG) (node : DicNode)
  : DicNode :=
  {| accumulatedCost := accumulatedCost node;
     inputCursor := mInputIndex inputStateG;
     editCount := editCount node;
     proximityCount := proximityCount node;
     isTerminal := isTerminal node;
     derivedFromSwap := derivedFromSwap node;
     mProfiler := mProfiler node |}.

(** Modelled from the spec: [DicNode::forwardInputIndex (pointerId, count,
    flag)] advances the node's cursor by [count]; with the flag, which
    the caller sets for a transposition only, it "also marks the node as
    derived from a swap". *)
Definition forwardInputIndex (pointerId count : Z) (swap : bool) (node : DicNode)
  : DicNode :=
  {| accumulatedCost := accumulatedCost node;
     inputCursor := inputCursor node + count;
     editCount := editCount node;
     proximityCount := proximityCount node;
     isTerminal := isTerminal node;
     derivedFromSwap := if swap then true else derivedFromSwap node;
     mProfiler := mProfiler node |}.

(** Modelled from the spec: the amount [DicNode::addCost] adds to the
    accumulated cost is spatial plus language cost, "divided by a function
    of [inputSize] before accumulation" when the policy asks for
    normalization. *)
Definition costContribution (spatialCost languageCost : float)
    (doNormalization : bool) (inputSize : Z) : float :=
  if doNormalization
  then ((spatialCost + languageCost) / normalizer inputSize)%Q
  else (spatialCost + languageCost)%Q.

(** Modelled from the spec: [DicNode::addCost] adds the contribution to
    the node's accumulated cost and bumps the edit and proximity tallies
    according to the two classifications. *)
Definition addCost (spatialCost languageCost : float) (doNormalization : bool)
    (inputSize : Z) (isEditCorrection isProximityCorrection : bool)
    (node : DicNode) : DicNode :=
  {| accumulatedCost :=
       (accumulatedCost node
        + costContribution spatialCost languageCost doNormalization inputSize)%Q;
     inputCursor := inputCursor node;
     editCount := if isEditCorrection then editCount node + 1 else editCount node;
     proximityCount :=
       if isProximityCorrection
       then proximityCount node + 1 else proximityCount node;
     isTerminal := isTerminal node;
     derivedFromSwap := derivedFromSwap node;
     mProfiler := mProfiler node |}.

(** [Weighting::addCostAndForwardInputIndex], lines 71-95.

    [traverseSession] and [bigramCacheMap] are the session and the cache
    of [m].  The local [inputStateG] is declared without an initializer
    and only its flag is assigned: [fresh] is what the declaration left
    in the other fields.  A [dicNode] that points to no node makes the
    call undefined: the result is [None]. *)
Definition addCostAndForwardInputIndex (weighting : Weighting)
    (correctionType : CorrectionType) (parentDicNode dicNode : ptr)
    (fresh : DicNode_InputStateG) (m : Memory) : option Memory :=
  let inputSize := getInputSize (session m) in
  let inputStateG := setNeedsToUpdateInputStateG false fresh in
  let '(spatialCost, inputStateG) :=
    getSpatialCost weighting correctionType m parentDicNode dicNode inputStateG in
  let '(languageCost, cache) :=
    getLanguageCost weighting correctionType m parentDicNode dicNode in
  let m := setBigramCache cache m in
  let edit := isEditCorrection correctionType in
  let proximity := isProximityCorrection weighting correctionType m dicNode in
  node ← nodes m !! dicNode;
  let node := profile correctionType node in
  let node :=
    if mNeedsToUpdateInputStateG inputStateG
    then updateInputIndexG inputStateG node
    else forwardInputIndex 0 (getForwardInputCount correctionType)
           (bool_decide (correctionType = CT_TRANSPOSITION)) node in
  let node :=
    addCost spatialCost languageCost (needsToNormalizeCompoundDistance weighting)
      inputSize edit proximity node in
  Some (storeNode dicNode node m).

(** The candidate as the update leaves it, given the candidate it found. *)
Definition updatedNode (weighting : Weighting) (correctionType : CorrectionType)
    (parentDicNode dicNode : ptr) (fresh : DicNode_InputStateG) (m : Memory)
    (node : DicNode) : DicNode :=
  let spatial := spatialStep weighting correctionType parentDicNode dicNode fresh m in
  let language := getLanguageCost weighting correctionType m parentDicNode dicNode in
  let m1 := setBigramCache (snd language) m in
  let moved :=
    if mNeedsToUpdateInputStateG (snd spatial)
    then updateInputIndexG (snd spatial) (profile correctionType node)
    else forwardInputIndex 0 (getForwardInputCount correctionType)
           (bool_decide (correctionType = CT_TRANSPOSITION))
           (profile correctionType node) in
  addCost (fst spatial) (fst language)
    (needsToNormalizeCompoundDistance weighting) (getInputSize (session m))
    (isEditCorrection correctionType)
    (isProximityCorrection weighting correctionType m1 dicNode) moved.

End NodeUpdate.

(** ** A sample policy and memory *)

(** A typing-style policy with fixed costs; its [getMatchedCost] asks for
    the cursor override when the candidate sits at address [3]. *)
Definition sampleWeighting : Weighting :=
  {| getOmissionCost := fun _ _ _ => 1 # 4;
     getAdditionalProximityCost := 1 # 2;
     getSubstitutionCost := 1 # 3;
     getNewWordCost := fun _ _ => 1 # 5;
     getMatchedCost := fun _ dicNode inputStateG =>
       if (dicNode =? 3)%Z
       then (1 # 8, {| mNeedsToUpdateInputStateG := true; mInputIndex := 5 |})
       else (0, inputStateG);
     getCompletionCost := fun _ _ => 1 # 10;
     getTerminalSpatialCost := fun _ _ => 1 # 6;
     getSpaceSubstitutionCost := 1 # 7;
     getInsertionCost := fun _ _ _ => 3 # 4;
     getTranspositionCost := fun _ _ _ => 2 # 3;
     getNewWordBigramCost := fun m parentDicNode =>
       (3 # 4, <[parentDicNode := 12%Z]> (bigramCache m));
     getTerminalLanguageCost := fun _ _ languageImprobability => languageImprobability;
     isProximityDicNode := fun _ dicNode => (dicNode =? 2)%Z;
     needsToNormalizeCompoundDistance := true |}%Q.

Definition sampleImprobability (dicRoot : ptr) (m : Memory) (node : ptr)
  : float * gmap Z Z :=
  (1 # 2, <[node := 7%Z]> (bigramCache m))%Q.

Definition sampleNormalizer (inputSize : Z) : float := inject_Z (Z.max 1 inputSize).

Definition sampleNode (cost : float) (cursor : Z) : DicNode :=
  {| accumulatedCost := cost; inputCursor := cursor;
     editCount := 0; proximityCount := 0;
     isTerminal := false; derivedFromSwap := false;
     mProfiler := fun _ => 0 |}.

(** Input of three touch points; the parent sits at address [1], two
    candidates created from it at [2] and [3]. *)
Definition sampleMemory : Memory :=
  {| nodes := <[1 := sampleNode (1 # 2) 1]>
               (<[2 := sampleNode (1 # 2) 1]>
                 (<[3 := sampleNode (1 # 2) 1]> ∅));
     session := {| mInputSequence := [[99; 120]; [97; 115]; [116; 114]];
                   mInputSize := 3; mOffsetDict := 64 |};
     bigramCache := ∅ |}.

Definition sampleFresh : DicNode_InputStateG :=
  {| mNeedsToUpdateInputStateG := true; mInputIndex := 77 |}.

Definition sampleUpdate :=
  addCostAndForwardInputIndex sampleImprobability false sampleNormalizer sampleWeighting.

(** ** Paths *)

(** A path of the search as the node at [dicNode] lives it: the entry
    point called once per operation, each call starting from the memory the
    previous one left.  The first call that finds no candidate ends the
    path without a result. *)
Fixpoint updatePath (getBigramNodeImprobability : ptr -> Memory -> ptr -> float * gmap Z Z)
    (DEBUG_DICT : bool) (normalizer : Z -> float) (weighting : Weighting)
    (operations : list CorrectionType) (parentDicNode dicNode : ptr)
    (fresh : DicNode_InputStateG) (m : Memory) : option Memory :=
  match operations with
  | [] => Some m
  | correctionType :: rest =>
      m' ← addCostAndForwardInputIndex getBigramNodeImprobability DEBUG_DICT
             normalizer weighting correctionType parentDicNode dicNode fresh m;
      updatePath getBigramNodeImprobability DEBUG_DICT normalizer weighting
        rest parentDicNode dicNode fresh m'
  end.

(** The input positions the operations of a path consume by the table. *)
Definition forwardInputTotal (operations : list CorrectionType) : Z :=
  foldr (fun correctionType total => getForwardInputCount correctionType + total)
    0 operations.

(** The number of edit corrections among the operations of a path. *)
Definition editTotal (operations : list CorrectionType) : Z :=
  foldr (fun correctionType total =>
           (if isEditCorrection correctionType then 1 else 0) + total)
    0 operations.

(** ** Entry states off the usual path *)





(** * Properties *)

(** ** The classification tables *)

Lemma inTaxonomy_false (correctionType : CorrectionType) :
  inTaxonomy correctionType = false <-> exists raw, correctionType = CT_unknown raw.
Proof.
  split.
  - destruct correctionType; simpl; try discriminate. intros _. eauto.
  - intros [raw ->]. reflexivity.
Qed.

(** C1: [isEditCorrection] answers true exactly for OMISSION, INSERTION and
    TRANSPOSITION; every other tag, ADDITIONAL_PROXIMITY and SUBSTITUTION
    among them, gets false. *)
Theorem isEditCorrection_table :
  forall correctionType : CorrectionType,
    (isEditCorrection correctionType = true <->
       correctionType = CT_OMISSION \/ correctionType = CT_INSERTION
       \/ correctionType = CT_TRANSPOSITION)
    /\ (isEditCorrection correctionType = false <->
          correctionType <> CT_OMISSION /\ correctionType <> CT_INSERTION
          /\ correctionType <> CT_TRANSPOSITION)
    /\ isEditCorrection CT_ADDITIONAL_PROXIMITY = false
    /\ isEditCorrection CT_SUBSTITUTION = false.
Proof.
  intros ct. repeat split; try reflexivity.
  - destruct ct; simpl; intros H; try discriminate H; auto.
  - intros [-> | [-> | ->]]; reflexivity.
  - intros ->; discriminate H.
  - intros ->; discriminate H.
  - intros ->; discriminate H.
  - intros (H1 & H2 & H3). destruct ct; simpl; congruence.
Qed.

(** C2: the forward-count table: 0 for OMISSION, ADDITIONAL_PROXIMITY,
    SUBSTITUTION, COMPLETION and TERMINAL, 1 for MATCH and
    SPACE_SUBSTITUTION, 2 for INSERTION and TRANSPOSITION. *)
Theorem getForwardInputCount_table :
  getForwardInputCount CT_OMISSION = 0
  /\ getForwardInputCount CT_ADDITIONAL_PROXIMITY = 0
  /\ getForwardInputCount CT_SUBSTITUTION = 0
  /\ getForwardInputCount CT_COMPLETION = 0
  /\ getForwardInputCount CT_TERMINAL = 0
  /\ getForwardInputCount CT_MATCH = 1
  /\ getForwardInputCount CT_SPACE_SUBSTITUTION = 1
  /\ getForwardInputCount CT_INSERTION = 2
  /\ getForwardInputCount CT_TRANSPOSITION = 2.
Proof. repeat split. Qed.

(** C9: NEW_WORD consumes no input position. *)
Theorem getForwardInputCount_NEW_WORD : getForwardInputCount CT_NEW_WORD = 0.
Proof. reflexivity. Qed.

(** The count is 0, 1 or 2 whatever the tag, unknown ones included. *)
Lemma getForwardInputCount_range (correctionType : CorrectionType) :
  0 <= getForwardInputCount correctionType <= 2.
Proof. destruct correctionType; simpl; lia. Qed.

(** C5: [isProximityCorrection] is true exactly when the tag is MATCH and
    the policy's near-key predicate holds of the session and the node; for
    MATCH it is the predicate, for any other tag it is false. *)
Theorem isProximityCorrection_only_match :
  forall (weighting : Weighting) (correctionType : CorrectionType)
         (m : Memory) (dicNode : ptr),
    (isProximityCorrection weighting correctionType m dicNode = true <->
       correctionType = CT_MATCH /\ isProximityDicNode weighting m dicNode = true)
    /\ isProximityCorrection weighting CT_MATCH m dicNode
        = isProximityDicNode weighting m dicNode
    /\ (correctionType <> CT_MATCH ->
        isProximityCorrection weighting correctionType m dicNode = false)
    /\ isProximityCorrection weighting correctionType m dicNode
        = bool_decide (correctionType = CT_MATCH)
          && isProximityDicNode weighting m dicNode.
Proof.
  intros w ct m c. split; [| split; [| split]].
  - split.
    + destruct ct; simpl; intros H; try discriminate H. auto.
    + intros [-> H]. exact H.
  - reflexivity.
  - destruct ct; simpl; congruence.
  - destruct ct; reflexivity.
Qed.

(** C10: no tag is both an edit correction and a proximity correction,
    whatever the policy, the memory and the candidate. *)
Theorem edit_and_proximity_exclusive :
  forall (weighting : Weighting) (correctionType : CorrectionType)
         (m : Memory) (dicNode : ptr),
    isEditCorrection correctionType
    && isProximityCorrection weighting correctionType m dicNode = false.
Proof. intros w ct m c. destruct ct; reflexivity. Qed.

(** C6: for a tag outside the ten of the taxonomy [getSpatialCost] yields
    the cost [0.0] (it is a total function: there is no error result) and
    leaves the input state as it was given. *)
Theorem getSpatialCost_unknown_tag :
  forall (weighting : Weighting) (correctionType : CorrectionType) (m : Memory)
         (parentDicNode dicNode : ptr) (inputStateG : DicNode_InputStateG),
    inTaxonomy correctionType = false ->
    getSpatialCost weighting correctionType m parentDicNode dicNode inputStateG
    = (0%Q, inputStateG).
Proof.
  intros w ct m p c st H. apply inTaxonomy_false in H as [raw ->]. reflexivity.
Qed.

(** Only a MATCH can come back from the spatial step with the override
    flag set: every other label leaves the cleared flag alone. *)
Lemma override_only_for_match (weighting : Weighting) (correctionType : CorrectionType)
    (parentDicNode dicNode : ptr) (fresh : DicNode_InputStateG) (m : Memory) :
  correctionType <> CT_MATCH ->
  mNeedsToUpdateInputStateG
    (snd (spatialStep weighting correctionType parentDicNode dicNode fresh m))
  = false.
Proof.
  intros Hne. unfold spatialStep. destruct correctionType; simpl; congruence.
Qed.

(** ** Language cost and the node update *)

Section UpdateProperties.

Variable getBigramNodeImprobability : ptr -> Memory -> ptr -> float * gmap Z Z.
Variable DEBUG_DICT : bool.
Variable normalizer : Z -> float.

Local Abbreviation languageCostOf :=
  (getLanguageCost getBigramNodeImprobability) (only parsing).
Local Abbreviation update :=
  (addCostAndForwardInputIndex getBigramNodeImprobability DEBUG_DICT normalizer)
  (only parsing).

(** C3: outside NEW_WORD and TERMINAL the language cost is exactly [0.0]
    (and the bigram cache is left alone), so only those two tags can
    carry a language cost other than zero. *)
Theorem getLanguageCost_zero :
  forall (weighting : Weighting) (correctionType : CorrectionType) (m : Memory)
         (parentDicNode dicNode : ptr),
    correctionType <> CT_NEW_WORD -> correctionType <> CT_TERMINAL ->
    languageCostOf weighting correctionType m parentDicNode dicNode
    = (0%Q, bigramCache m).
Proof.
  intros w ct m p c Hnew Hterm. destruct ct; simpl; congruence.
Qed.

(** Read the other way round: a language cost other than zero comes from
    NEW_WORD or TERMINAL. *)
Lemma getLanguageCost_nonzero_tags (weighting : Weighting)
    (correctionType : CorrectionType) (m : Memory) (parentDicNode dicNode : ptr) :
  fst (languageCostOf weighting correctionType m parentDicNode dicNode) <> 0%Q ->
  correctionType = CT_NEW_WORD \/ correctionType = CT_TERMINAL.
Proof.
  destruct correctionType; simpl; intros H; auto; congruence.
Qed.

(** The profiler touches nothing but its counters. *)
Lemma profile_fields (correctionType : CorrectionType) (node : DicNode) :
  let node' := profile DEBUG_DICT correctionType node in
  accumulatedCost node' = accumulatedCost node
  /\ inputCursor node' = inputCursor node
  /\ editCount node' = editCount node
  /\ proximityCount node' = proximityCount node
  /\ derivedFromSwap node' = derivedFromSwap node.
Proof.
  unfold profile. destruct DEBUG_DICT, correctionType; simpl; auto.
Qed.

(** With a candidate in place the update returns, and what it returns is
    the memory with the new cache and the rewritten candidate. *)
Lemma update_returns (weighting : Weighting) (correctionType : CorrectionType)
    (parentDicNode dicNode : ptr) (fresh : DicNode_InputStateG) (m : Memory)
    (node : DicNode) :
  nodes m !! dicNode = Some node ->
  update weighting correctionType parentDicNode dicNode fresh m
  = Some (storeNode dicNode
            (updatedNode getBigramNodeImprobability DEBUG_DICT normalizer
               weighting correctionType parentDicNode dicNode fresh m node)
            (setBigramCache
               (snd (languageCostOf weighting correctionType m parentDicNode dicNode))
               m)).
Proof.
  intros Hnode. unfold addCostAndForwardInputIndex, updatedNode, spatialStep.
  destruct (getSpatialCost _ _ _ _ _ _) as [spatialCost inputStateG].
  destruct (getLanguageCost _ _ _ _ _ _) as [languageCost cache].
  simpl. rewrite Hnode. reflexivity.
Qed.


(** When the two pointers are one, the node behind [parentDicNode] is the
    candidate and is rewritten with it. *)
Lemma update_aliased_parent (weighting : Weighting) (correctionType : CorrectionType)
    (dicNode : ptr) (fresh : DicNode_InputStateG) (m : Memory) (node : DicNode) :
  nodes m !! dicNode = Some node ->
  exists m',
    update weighting correctionType dicNode dicNode fresh m = Some m'
    /\ nodes m' !! dicNode
       = Some (updatedNode getBigramNodeImprobability DEBUG_DICT normalizer
                 weighting correctionType dicNode dicNode fresh m node).
Proof.
  intros Hnode. eexists. split; [apply update_returns; exact Hnode |].
  simpl. apply lookup_insert_eq.
Qed.


(** Whichever branch moved the cursor, the candidate comes out marked as
    derived from a swap for a TRANSPOSITION, and with the mark it came in
    with for any other operation. *)
Lemma update_swap_mark (weighting : Weighting) (correctionType : CorrectionType)
    (parentDicNode dicNode : ptr) (fresh : DicNode_InputStateG) (m : Memory)
    (node : DicNode) :
  derivedFromSwap
    (updatedNode getBigramNodeImprobability DEBUG_DICT normalizer
       weighting correctionType parentDicNode dicNode fresh m node)
  = if bool_decide (correctionType = CT_TRANSPOSITION)
    then true else derivedFromSwap node.
Proof.
  destruct (profile_fields correctionType node) as (_ & _ & _ & _ & Hswap).
  unfold updatedNode. cbv zeta.
  destruct (decide (correctionType = CT_MATCH)) as [-> | Hne].
  - destruct (mNeedsToUpdateInputStateG _); simpl; exact Hswap.
  - rewrite override_only_for_match by exact Hne. simpl.
    rewrite Hswap. reflexivity.
Qed.

(** Without the override the cursor never moves backwards, and by no more
    than two positions. *)
Lemma forwardInputIndex_cursor_bounds (correctionType : CorrectionType) (node : DicNode) :
  let node' :=
    forwardInputIndex 0 (getForwardInputCount correctionType)
      (bool_decide (correctionType = CT_TRANSPOSITION)) node in
  inputCursor node <= inputCursor node' <= inputCursor node + 2.
Proof.
  simpl. pose proof (getForwardInputCount_range correctionType). lia.
Qed.

(** The contribution of non-negative costs is non-negative. *)
Lemma costContribution_nonneg (spatialCost languageCost : float)
    (doNormalization : bool) (inputSize : Z) :
  (0 <= spatialCost)%Q -> (0 <= languageCost)%Q ->
  (doNormalization = true -> (0 < normalizer inputSize)%Q) ->
  (0 <= costContribution normalizer spatialCost languageCost doNormalization inputSize)%Q.
Proof.
  intros Hs Hl Hn. unfold costContribution. destruct doNormalization.
  - apply Qle_shift_div_l; [apply Hn; reflexivity | lra].
  - lra.
Qed.





End UpdateProperties.

(** ** The properties at work on the sample policy *)

(** NEW_WORD and TERMINAL do carry a language cost under the sample policy,
    and both fill the bigram cache. *)
Example language_cost_new_word :
  getLanguageCost sampleImprobability sampleWeighting CT_NEW_WORD sampleMemory 1 2
  = ((3 # 4)%Q, <[1 := 12]> ∅).
Proof. reflexivity. Qed.

Example language_cost_terminal :
  getLanguageCost sampleImprobability sampleWeighting CT_TERMINAL sampleMemory 1 2
  = ((1 # 2)%Q, <[2 := 7]> ∅).
Proof. reflexivity. Qed.

(** ADDITIONAL_PROXIMITY has no label in [getLanguageCost]: it takes the
    default. *)
Example language_cost_additional_proximity :
  getLanguageCost sampleImprobability sampleWeighting CT_ADDITIONAL_PROXIMITY
    sampleMemory 1 2
  = (0%Q, ∅).
Proof. reflexivity. Qed.

(** A transposition moves the cursor by two, counts as one edit, is charged
    once and marks the node. *)
Example transposition_step :
  (sampleUpdate CT_TRANSPOSITION 1 2 sampleFresh sampleMemory
     ≫= fun m' => nodes m' !! 2)
  = Some {| accumulatedCost := 13 # 18; inputCursor := 3;
            editCount := 1; proximityCount := 0;
            isTerminal := false; derivedFromSwap := true;
            mProfiler := fun _ => 0 |}.
Proof. vm_compute. reflexivity. Qed.

(** An insertion consumes two input positions and is one edit. *)
Example insertion_step :
  (sampleUpdate CT_INSERTION 1 2 sampleFresh sampleMemory
     ≫= fun m' => nodes m' !! 2)
  = Some {| accumulatedCost := 18 # 24; inputCursor := 3;
            editCount := 1; proximityCount := 0;
            isTerminal := false; derivedFromSwap := false;
            mProfiler := fun _ => 0 |}.
Proof. vm_compute. reflexivity. Qed.

(** A match whose policy sets the override flag takes the policy's cursor,
    not the table's. *)
Example match_with_override :
  (sampleUpdate CT_MATCH 1 3 sampleFresh sampleMemory
     ≫= fun m' => nodes m' !! 3)
  = Some {| accumulatedCost := 26 # 48; inputCursor := 5;
            editCount := 0; proximityCount := 0;
            isTerminal := false; derivedFromSwap := false;
            mProfiler := fun _ => 0 |}.
Proof. vm_compute. reflexivity. Qed.

(** With [DEBUG_DICT] the profiler counts the operation on the candidate. *)
Example profiled_match :
  (addCostAndForwardInputIndex sampleImprobability true sampleNormalizer
     sampleWeighting CT_MATCH 1 2 sampleFresh sampleMemory
     ≫= fun m' => (fun node => (mProfiler node CT_MATCH, mProfiler node CT_OMISSION))
                    <$> nodes m' !! 2)
  = Some (1, 0).
Proof. vm_compute. reflexivity. Qed.

(** A candidate pointer that points nowhere yields no result. *)
Example dangling_candidate :
  sampleUpdate CT_MATCH 1 9 sampleFresh sampleMemory = None.
Proof. vm_compute. reflexivity. Qed.

Lemma getLanguageCost_zero_witness :
  CT_MATCH <> CT_NEW_WORD
  /\ CT_MATCH <> CT_TERMINAL
  /\ getLanguageCost sampleImprobability sampleWeighting CT_MATCH sampleMemory 1 2
     = (0%Q, bigramCache sampleMemory).
Proof.
  split; [discriminate |]. split; [discriminate |].
  apply (getLanguageCost_zero sampleImprobability sampleWeighting CT_MATCH
           sampleMemory 1 2); discriminate.
Defined.

Lemma getSpatialCost_unknown_tag_witness :
  inTaxonomy (CT_unknown 10) = false
  /\ getSpatialCost sampleWeighting (CT_unknown 10) sampleMemory 1 2 sampleFresh
     = (0%Q, sampleFresh).
Proof.
  split; [reflexivity |].
  apply (getSpatialCost_unknown_tag sampleWeighting (CT_unknown 10) sampleMemory
           1 2 sampleFresh).
  reflexivity.
Defined.







(** * Further properties of the tables and of the node update *)

(** ** Across the tables *)

(** X1: the tables agree with each other: an operation that consumes two
    input positions is an edit correction, one that consumes a single
    position is not, and a proximity correction consumes exactly one. *)
Theorem forward_count_and_classification :
  forall (weighting : Weighting) (correctionType : CorrectionType)
         (m : Memory) (dicNode : ptr),
    (getForwardInputCount correctionType = 2 ->
     isEditCorrection correctionType = true)
    /\ (getForwardInputCount correctionType = 1 ->
        isEditCorrection correctionType = false)
    /\ (isProximityCorrection weighting correctionType m dicNode = true ->
        getForwardInputCount correctionType = 1)
    /\ (isEditCorrection correctionType = true ->
        getForwardInputCount correctionType = 0
        \/ getForwardInputCount correctionType = 2).
Proof.
  intros w ct m c.
  destruct ct; simpl; repeat split; intros H;
    try reflexivity; try discriminate H; auto.
Qed.

(** With [DEBUG_DICT] the profiler adds one to the counter of the tag
    it is called with, for each of the ten tags, and to no other counter;
    a tag outside the ten counts nowhere; and nothing but the counters of
    the node changes. *)
Lemma profile_counts_own_tag :
  forall (correctionType tag : CorrectionType) (node : DicNode),
    let node' := profile true correctionType node in
    mProfiler node' tag
    = mProfiler node tag
      + (if inTaxonomy correctionType && bool_decide (tag = correctionType)
         then 1 else 0)
    /\ accumulatedCost node' = accumulatedCost node
    /\ inputCursor node' = inputCursor node
    /\ editCount node' = editCount node
    /\ proximityCount node' = proximityCount node
    /\ isTerminal node' = isTerminal node
    /\ derivedFromSwap node' = derivedFromSwap node.
Proof.
  intros ct tag node.
  destruct ct; simpl; repeat split; try case_bool_decide; lia.
Qed.

Section FurtherProperties.

Variable getBigramNodeImprobability : ptr -> Memory -> ptr -> float * gmap Z Z.
Variable DEBUG_DICT : bool.
Variable normalizer : Z -> float.

Local Abbreviation languageCostOf :=
  (getLanguageCost getBigramNodeImprobability) (only parsing).
Local Abbreviation update :=
  (addCostAndForwardInputIndex getBigramNodeImprobability DEBUG_DICT normalizer)
  (only parsing).
Local Abbreviation updated :=
  (updatedNode getBigramNodeImprobability DEBUG_DICT normalizer) (only parsing).
Local Abbreviation path :=
  (updatePath getBigramNodeImprobability DEBUG_DICT normalizer) (only parsing).

(** *** What one call leaves behind *)

Lemma setBigramCache_same (m : Memory) : setBigramCache (bigramCache m) m = m.
Proof. destruct m. reflexivity. Qed.

Lemma languageCost_outside_bigram_tags (weighting : Weighting)
    (correctionType : CorrectionType) (m : Memory) (parentDicNode dicNode : ptr) :
  correctionType <> CT_NEW_WORD -> correctionType <> CT_TERMINAL ->
  languageCostOf weighting correctionType m parentDicNode dicNode
  = (0%Q, bigramCache m).
Proof. destruct correctionType; simpl; congruence. Qed.

Lemma profile_isTerminal (correctionType : CorrectionType) (node : DicNode) :
  isTerminal (profile DEBUG_DICT correctionType node) = isTerminal node.
Proof. unfold profile. destruct DEBUG_DICT, correctionType; reflexivity. Qed.

Lemma update_shape (weighting : Weighting) (correctionType : CorrectionType)
    (parentDicNode dicNode : ptr) (fresh : DicNode_InputStateG) (m : Memory)
    (node : DicNode) :
  nodes m !! dicNode = Some node ->
  exists m' : Memory,
    update weighting correctionType parentDicNode dicNode fresh m = Some m'
    /\ nodes m' !! dicNode
       = Some (updated weighting correctionType parentDicNode dicNode fresh m node)
    /\ session m' = session m
    /\ bigramCache m'
       = snd (languageCostOf weighting correctionType m parentDicNode dicNode)
    /\ (forall other : ptr, other <> dicNode -> nodes m' !! other = nodes m !! other).
Proof.
  intros Hnode. eexists. split; [apply update_returns; exact Hnode |].
  simpl. split; [apply lookup_insert_eq |]. split; [reflexivity |].
  split; [reflexivity |].
  intros other Hother. apply lookup_insert_ne. congruence.
Qed.

Lemma updated_editCount (weighting : Weighting) (correctionType : CorrectionType)
    (parentDicNode dicNode : ptr) (fresh : DicNode_InputStateG) (m : Memory)
    (node : DicNode) :
  editCount (updated weighting correctionType parentDicNode dicNode fresh m node)
  = editCount node + (if isEditCorrection correctionType then 1 else 0).
Proof.
  destruct (profile_fields DEBUG_DICT correctionType node) as (_ & _ & Hedit & _).
  unfold updatedNode. cbv zeta.
  destruct (mNeedsToUpdateInputStateG _); simpl; rewrite Hedit;
    destruct (isEditCorrection correctionType); lia.
Qed.

Lemma updated_proximityCount (weighting : Weighting) (correctionType : CorrectionType)
    (parentDicNode dicNode : ptr) (fresh : DicNode_InputStateG) (m : Memory)
    (node : DicNode) :
  proximityCount (updated weighting correctionType parentDicNode dicNode fresh m node)
  = proximityCount node
    + (if bool_decide (correctionType = CT_MATCH)
          && isProximityDicNode weighting m dicNode
       then 1 else 0).
Proof.
  destruct (profile_fields DEBUG_DICT correctionType node) as (_ & _ & _ & Hprox & _).
  unfold updatedNode. cbv zeta.
  destruct (decide (correctionType = CT_MATCH)) as [-> | Hne].
  - simpl getLanguageCost. cbn [snd]. rewrite setBigramCache_same.
    destruct (mNeedsToUpdateInputStateG _); simpl; rewrite Hprox;
      destruct (isProximityDicNode weighting m dicNode); lia.
  - rewrite (bool_decide_eq_false_2 (correctionType = CT_MATCH)) by exact Hne.
    assert (Hfalse : forall m1, isProximityCorrection weighting correctionType m1 dicNode
                                = false)
      by (intros m1; destruct correctionType; simpl; congruence).
    rewrite Hfalse.
    destruct (mNeedsToUpdateInputStateG _); simpl; rewrite Hprox; lia.
Qed.

Lemma updated_cursor_without_match (weighting : Weighting)
    (correctionType : CorrectionType) (parentDicNode dicNode : ptr)
    (fresh : DicNode_InputStateG) (m : Memory) (node : DicNode) :
  correctionType <> CT_MATCH ->
  inputCursor (updated weighting correctionType parentDicNode dicNode fresh m node)
  = inputCursor node + getForwardInputCount correctionType.
Proof.
  intros Hne.
  destruct (profile_fields DEBUG_DICT correctionType node) as (_ & Hcur & _).
  unfold updatedNode. cbv zeta.
  rewrite override_only_for_match by exact Hne. simpl.
  rewrite Hcur. reflexivity.
Qed.

Lemma updated_accumulatedCost (weighting : Weighting) (correctionType : CorrectionType)
    (parentDicNode dicNode : ptr) (fresh : DicNode_InputStateG) (m : Memory)
    (node : DicNode) :
  accumulatedCost (updated weighting correctionType parentDicNode dicNode fresh m node)
  = (accumulatedCost node
     + costContribution normalizer
         (fst (spatialStep weighting correctionType parentDicNode dicNode fresh m))
         (fst (languageCostOf weighting correctionType m parentDicNode dicNode))
         (needsToNormalizeCompoundDistance weighting)
         (getInputSize (session m)))%Q.
Proof.
  destruct (profile_fields DEBUG_DICT correctionType node) as (Hacc & _).
  unfold updatedNode. cbv zeta.
  destruct (mNeedsToUpdateInputStateG _); simpl; rewrite Hacc; reflexivity.
Qed.

Lemma updated_cursor (weighting : Weighting) (correctionType : CorrectionType)
    (parentDicNode dicNode : ptr) (fresh : DicNode_InputStateG) (m : Memory)
    (node : DicNode) :
  inputCursor (updated weighting correctionType parentDicNode dicNode fresh m node)
  = let inputStateG :=
      snd (spatialStep weighting correctionType parentDicNode dicNode fresh m) in
    if mNeedsToUpdateInputStateG inputStateG
    then mInputIndex inputStateG
    else inputCursor node + getForwardInputCount correctionType.
Proof.
  destruct (profile_fields DEBUG_DICT correctionType node) as (_ & Hcur & _).
  unfold updatedNode. cbv zeta.
  destruct (mNeedsToUpdateInputStateG _); simpl; rewrite ?Hcur; reflexivity.
Qed.

Lemma updated_isTerminal (weighting : Weighting) (correctionType : CorrectionType)
    (parentDicNode dicNode : ptr) (fresh : DicNode_InputStateG) (m : Memory)
    (node : DicNode) :
  isTerminal (updated weighting correctionType parentDicNode dicNode fresh m node)
  = isTerminal node.
Proof.
  pose proof (profile_isTerminal correctionType node) as Hterm.
  unfold updatedNode. cbv zeta.
  destruct (mNeedsToUpdateInputStateG _); simpl; exact Hterm.
Qed.

(** *** One call *)

(** X2: only a MATCH can have its cursor overridden by the policy.  For
    any other operation the candidate leaves the call with the cursor it
    came in with plus the table's count, whatever the policy answers; the
    cursor never moves backwards, and by no more than two positions. *)
Theorem update_cursor_outside_match :
  forall (weighting : Weighting) (correctionType : CorrectionType)
         (parentDicNode dicNode : ptr) (fresh : DicNode_InputStateG) (m : Memory)
         (node : DicNode),
    correctionType <> CT_MATCH ->
    nodes m !! dicNode = Some node ->
    exists (m' : Memory) (node' : DicNode),
      update weighting correctionType parentDicNode dicNode fresh m = Some m'
      /\ nodes m' !! dicNode = Some node'
      /\ inputCursor node' = inputCursor node + getForwardInputCount correctionType
      /\ inputCursor node <= inputCursor node' <= inputCursor node + 2.
Proof.
  intros w ct p c fresh m node Hne Hnode.
  destruct (update_shape w ct p c fresh m node Hnode) as (m' & Hup & Hn' & _).
  exists m'. eexists. split; [exact Hup |]. split; [exact Hn' |].
  rewrite updated_cursor_without_match by exact Hne.
  pose proof (getForwardInputCount_range ct). split; [reflexivity | lia].
Qed.

(** X3: the parent pointer matters to OMISSION, INSERTION, TRANSPOSITION
    and NEW_WORD only: for every other operation the call gives the same
    result whatever [parentDicNode] is, the null pointer included. *)
Theorem update_ignores_parent :
  forall (weighting : Weighting) (correctionType : CorrectionType)
         (parentDicNode otherParent dicNode : ptr) (fresh : DicNode_InputStateG)
         (m : Memory),
    correctionType <> CT_OMISSION ->
    correctionType <> CT_INSERTION ->
    correctionType <> CT_TRANSPOSITION ->
    correctionType <> CT_NEW_WORD ->
    update weighting correctionType parentDicNode dicNode fresh m
    = update weighting correctionType otherParent dicNode fresh m.
Proof.
  intros w ct p p' c fresh m Hom Hins Htr Hnew.
  destruct ct; try congruence; reflexivity.
Qed.

(** X4: outside NEW_WORD and TERMINAL the call leaves the bigram cache as
    it found it: the memory it returns is the memory it was given with the
    candidate replaced, and nothing else. *)
Theorem update_keeps_cache :
  forall (weighting : Weighting) (correctionType : CorrectionType)
         (parentDicNode dicNode : ptr) (fresh : DicNode_InputStateG) (m : Memory)
         (node : DicNode),
    correctionType <> CT_NEW_WORD ->
    correctionType <> CT_TERMINAL ->
    nodes m !! dicNode = Some node ->
    exists (m' : Memory) (node' : DicNode),
      update weighting correctionType parentDicNode dicNode fresh m = Some m'
      /\ m' = storeNode dicNode node' m
      /\ bigramCache m' = bigramCache m.
Proof.
  intros w ct p c fresh m node Hnew Hterm Hnode.
  eexists. eexists. split; [apply update_returns; exact Hnode |].
  rewrite (languageCost_outside_bigram_tags w ct m p c Hnew Hterm).
  cbn [snd]. rewrite setBigramCache_same. split; reflexivity.
Qed.

(** X5: a tag outside the ten goes through the whole call as a step that
    charges zero spatial and zero language cost and changes nothing else:
    cursor, tallies, swap mark, terminal flag, profiler counters and
    bigram cache are as before. *)
Theorem update_unknown_tag :
  forall (weighting : Weighting) (correctionType : CorrectionType)
         (parentDicNode dicNode : ptr) (fresh : DicNode_InputStateG) (m : Memory)
         (node : DicNode),
    inTaxonomy correctionType = false ->
    nodes m !! dicNode = Some node ->
    exists (m' : Memory) (node' : DicNode),
      update weighting correctionType parentDicNode dicNode fresh m = Some m'
      /\ nodes m' !! dicNode = Some node'
      /\ bigramCache m' = bigramCache m
      /\ accumulatedCost node'
         = (accumulatedCost node
            + costContribution normalizer 0 0
                (needsToNormalizeCompoundDistance weighting)
                (getInputSize (session m)))%Q
      /\ inputCursor node' = inputCursor node
      /\ editCount node' = editCount node
      /\ proximityCount node' = proximityCount node
      /\ isTerminal node' = isTerminal node
      /\ derivedFromSwap node' = derivedFromSwap node
      /\ mProfiler node' = mProfiler node.
Proof.
  intros w ct p c fresh m node Hout Hnode.
  apply inTaxonomy_false in Hout as [raw ->].
  destruct (update_shape w (CT_unknown raw) p c fresh m node Hnode)
    as (m' & Hup & Hn' & _ & Hcache & _).
  exists m'. eexists. split; [exact Hup |]. split; [exact Hn' |].
  split; [exact Hcache |].
  unfold updatedNode, spatialStep, profile. destruct DEBUG_DICT; simpl;
    rewrite Z.add_0_r; repeat split.
Qed.

(** X6: the tallies after one call.  The edit tally grows by one exactly
    for an edit correction; the proximity tally grows by one exactly for a
    MATCH whose candidate the policy reports as a near key, judged on the
    memory as the call found it; and one call never bumps both. *)
Theorem update_tallies :
  forall (weighting : Weighting) (correctionType : CorrectionType)
         (parentDicNode dicNode : ptr) (fresh : DicNode_InputStateG) (m : Memory)
         (node : DicNode),
    nodes m !! dicNode = Some node ->
    exists (m' : Memory) (node' : DicNode),
      update weighting correctionType parentDicNode dicNode fresh m = Some m'
      /\ nodes m' !! dicNode = Some node'
      /\ editCount node'
         = editCount node + (if isEditCorrection correctionType then 1 else 0)
      /\ proximityCount node'
         = proximityCount node
           + (if bool_decide (correctionType = CT_MATCH)
                 && isProximityDicNode weighting m dicNode
              then 1 else 0)
      /\ editCount node' + proximityCount node'
         <= editCount node + proximityCount node + 1.
Proof.
  intros w ct p c fresh m node Hnode.
  destruct (update_shape w ct p c fresh m node Hnode) as (m' & Hup & Hn' & _).
  exists m'. eexists. split; [exact Hup |]. split; [exact Hn' |].
  rewrite updated_editCount, updated_proximityCount.
  split; [reflexivity |]. split; [reflexivity |].
  destruct ct; simpl; try lia.
  destruct (isProximityDicNode w m c); simpl; lia.
Qed.

(** *** Along a path *)

(** X7: along any path on one candidate the calls go through, the session
    and every other node stay as they were, the edit tally grows by the
    number of edit corrections on the path, and, when the path has no
    MATCH, the cursor advances by the sum of the table's counts. *)
Theorem updatePath_frame_and_tallies :
  forall (weighting : Weighting) (operations : list CorrectionType)
         (parentDicNode dicNode : ptr) (fresh : DicNode_InputStateG) (m : Memory)
         (node : DicNode),
    nodes m !! dicNode = Some node ->
    exists (m' : Memory) (node' : DicNode),
      path weighting operations parentDicNode dicNode fresh m = Some m'
      /\ nodes m' !! dicNode = Some node'
      /\ session m' = session m
      /\ (forall other : ptr, other <> dicNode ->
          nodes m' !! other = nodes m !! other)
      /\ editCount node' = editCount node + editTotal operations
      /\ (~ In CT_MATCH operations ->
          inputCursor node' = inputCursor node + forwardInputTotal operations).
Proof.
  intros w ops p c fresh. induction ops as [| ct rest IH]; intros m node Hnode.
  - exists m, node. simpl. repeat split; auto; lia.
  - destruct (update_shape w ct p c fresh m node Hnode)
      as (m1 & Hup & Hn1 & Hs1 & _ & Hf1).
    destruct (IH m1 _ Hn1) as (m' & node' & Hpath & Hn' & Hs' & Hf' & Hedit & Hcur).
    exists m', node'. simpl. rewrite Hup. simpl.
    split; [exact Hpath |]. split; [exact Hn' |].
    split; [congruence |].
    split; [intros other Hother; rewrite Hf', Hf1 by exact Hother; reflexivity |].
    split.
    + rewrite Hedit, updated_editCount. lia.
    + intros Hnomatch.
      rewrite Hcur by (intros Hin; apply Hnomatch; right; exact Hin).
      rewrite updated_cursor_without_match
        by (intros ->; apply Hnomatch; left; reflexivity).
      lia.
Qed.

(** X8: under a policy whose spatial and language costs are never
    negative, and with a positive normalizer when the policy normalizes,
    the accumulated cost of the candidate never decreases along a path. *)
Theorem updatePath_cost_monotone :
  forall (weighting : Weighting) (operations : list CorrectionType)
         (parentDicNode dicNode : ptr) (fresh : DicNode_InputStateG) (m : Memory)
         (node : DicNode),
    (forall correctionType m0 parent0 node0 inputStateG,
        (0 <= fst (getSpatialCost weighting correctionType m0 parent0 node0
                     inputStateG))%Q) ->
    (forall correctionType m0 parent0 node0,
        (0 <= fst (languageCostOf weighting correctionType m0 parent0 node0))%Q) ->
    (needsToNormalizeCompoundDistance weighting = true ->
     (0 < normalizer (getInputSize (session m)))%Q) ->
    nodes m !! dicNode = Some node ->
    exists (m' : Memory) (node' : DicNode),
      path weighting operations parentDicNode dicNode fresh m = Some m'
      /\ nodes m' !! dicNode = Some node'
      /\ (accumulatedCost node <= accumulatedCost node')%Q.
Proof.
  intros w ops p c fresh m node Hspatial Hlanguage.
  revert m node. induction ops as [| ct rest IH]; intros m node Hnorm Hnode.
  - exists m, node. simpl. repeat split; auto. apply Qle_refl.
  - destruct (update_shape w ct p c fresh m node Hnode)
      as (m1 & Hup & Hn1 & Hs1 & _).
    assert (Hnorm1 : needsToNormalizeCompoundDistance w = true ->
                     (0 < normalizer (getInputSize (session m1)))%Q)
      by (rewrite Hs1; exact Hnorm).
    destruct (IH m1 _ Hnorm1 Hn1) as (m' & node' & Hpath & Hn' & Hle).
    exists m', node'. simpl. rewrite Hup. simpl.
    split; [exact Hpath |]. split; [exact Hn' |].
    eapply Qle_trans; [| exact Hle].
    rewrite updated_accumulatedCost.
    pose proof (costContribution_nonneg normalizer
                  (fst (spatialStep w ct p c fresh m))
                  (fst (languageCostOf w ct m p c))
                  (needsToNormalizeCompoundDistance w) (getInputSize (session m))
                  (Hspatial _ _ _ _ _) (Hlanguage _ _ _ _) Hnorm) as Hc.
    lra.
Qed.

End FurtherProperties.

(** X9: the debug profiler has no effect on the search: with and without
    [DEBUG_DICT] the call returns memories with the same bigram cache, the
    same session and the same other nodes, and candidates that agree on
    cost, cursor, tallies, terminal flag and swap mark. *)
Theorem update_debug_independent :
  forall (getBigramNodeImprobability : ptr -> Memory -> ptr -> float * gmap Z Z)
         (normalizer : Z -> float)
         (weighting : Weighting) (correctionType : CorrectionType)
         (parentDicNode dicNode : ptr) (fresh : DicNode_InputStateG) (m : Memory)
         (node : DicNode),
    nodes m !! dicNode = Some node ->
    exists (mDebug mPlain : Memory) (nodeDebug nodePlain : DicNode),
      addCostAndForwardInputIndex getBigramNodeImprobability true normalizer
        weighting correctionType parentDicNode dicNode fresh m = Some mDebug
      /\ addCostAndForwardInputIndex getBigramNodeImprobability false normalizer
           weighting correctionType parentDicNode dicNode fresh m = Some mPlain
      /\ nodes mDebug !! dicNode = Some nodeDebug
      /\ nodes mPlain !! dicNode = Some nodePlain
      /\ bigramCache mDebug = bigramCache mPlain
      /\ session mDebug = session mPlain
      /\ (forall other : ptr, other <> dicNode ->
          nodes mDebug !! other = nodes mPlain !! other)
      /\ accumulatedCost nodeDebug = accumulatedCost nodePlain
      /\ inputCursor nodeDebug = inputCursor nodePlain
      /\ editCount nodeDebug = editCount nodePlain
      /\ proximityCount nodeDebug = proximityCount nodePlain
      /\ isTerminal nodeDebug = isTerminal nodePlain
      /\ derivedFromSwap nodeDebug = derivedFromSwap nodePlain.
Proof.
  intros getB norm w ct p c fresh m node Hnode.
  destruct (update_shape getB true norm w ct p c fresh m node Hnode)
    as (mD & HupD & HnD & HsD & HcD & HfD).
  destruct (update_shape getB false norm w ct p c fresh m node Hnode)
    as (mP & HupP & HnP & HsP & HcP & HfP).
  exists mD, mP. eexists. eexists.
  split; [exact HupD |]. split; [exact HupP |].
  split; [exact HnD |]. split; [exact HnP |].
  split; [congruence |]. split; [congruence |].
  split; [intros other Hother; rewrite HfD, HfP by exact Hother; reflexivity |].
  rewrite !updated_accumulatedCost, !updated_cursor, !updated_editCount,
    !updated_proximityCount, !updated_isTerminal, !update_swap_mark.
  repeat split.
Qed.

(** ** The further properties at work on the sample policy *)

Lemma update_cursor_outside_match_witness :
  CT_INSERTION <> CT_MATCH
  /\ nodes sampleMemory !! 2 = Some (sampleNode (1 # 2) 1)
  /\ exists (m' : Memory) (node' : DicNode),
       sampleUpdate CT_INSERTION 0 2 sampleFresh sampleMemory = Some m'
       /\ nodes m' !! 2 = Some node'
       /\ inputCursor node' = 1 + 2.
Proof.
  split; [discriminate |]. split; [reflexivity |].
  destruct (update_cursor_outside_match sampleImprobability false sampleNormalizer
              sampleWeighting CT_INSERTION 0 2 sampleFresh sampleMemory
              (sampleNode (1 # 2) 1) ltac:(discriminate) eq_refl)
    as (m' & node' & Hupdate & Hnode & Hcursor & _).
  exists m', node'. split; [exact Hupdate |]. split; [exact Hnode | exact Hcursor].
Defined.

Lemma update_ignores_parent_witness :
  CT_MATCH <> CT_OMISSION
  /\ CT_MATCH <> CT_INSERTION
  /\ CT_MATCH <> CT_TRANSPOSITION
  /\ CT_MATCH <> CT_NEW_WORD
  /\ sampleUpdate CT_MATCH 1 2 sampleFresh sampleMemory
     = sampleUpdate CT_MATCH 0 2 sampleFresh sampleMemory.
Proof.
  repeat (split; [discriminate |]).
  apply (update_ignores_parent sampleImprobability false sampleNormalizer
           sampleWeighting CT_MATCH 1 0 2 sampleFresh sampleMemory);
    discriminate.
Defined.

Lemma update_keeps_cache_witness :
  CT_OMISSION <> CT_NEW_WORD
  /\ CT_OMISSION <> CT_TERMINAL
  /\ nodes sampleMemory !! 2 = Some (sampleNode (1 # 2) 1)
  /\ exists (m' : Memory) (node' : DicNode),
       sampleUpdate CT_OMISSION 1 2 sampleFresh sampleMemory = Some m'
       /\ m' = storeNode 2 node' sampleMemory
       /\ bigramCache m' = bigramCache sampleMemory.
Proof.
  split; [discriminate |]. split; [discriminate |]. split; [reflexivity |].
  apply (update_keeps_cache sampleImprobability false sampleNormalizer
           sampleWeighting CT_OMISSION 1 2 sampleFresh sampleMemory
           (sampleNode (1 # 2) 1));
    [discriminate | discriminate | reflexivity].
Defined.

Lemma update_unknown_tag_witness :
  inTaxonomy (CT_unknown 42) = false
  /\ nodes sampleMemory !! 2 = Some (sampleNode (1 # 2) 1)
  /\ exists (m' : Memory) (node' : DicNode),
       sampleUpdate (CT_unknown 42) 1 2 sampleFresh sampleMemory = Some m'
       /\ nodes m' !! 2 = Some node'
       /\ inputCursor node' = 1
       /\ editCount node' = 0
       /\ proximityCount node' = 0.
Proof.
  split; [reflexivity |]. split; [reflexivity |].
  destruct (update_unknown_tag sampleImprobability false sampleNormalizer
              sampleWeighting (CT_unknown 42) 1 2 sampleFresh sampleMemory
              (sampleNode (1 # 2) 1) eq_refl eq_refl)
    as (m' & node' & Hupdate & Hnode & _ & _ & Hcursor & Hedit & Hprox & _).
  exists m', node'. split; [exact Hupdate |]. split; [exact Hnode |].
  split; [exact Hcursor |]. split; [exact Hedit | exact Hprox].
Defined.

Lemma update_tallies_witness :
  nodes sampleMemory !! 2 = Some (sampleNode (1 # 2) 1)
  /\ exists (m' : Memory) (node' : DicNode),
       sampleUpdate CT_MATCH 1 2 sampleFresh sampleMemory = Some m'
       /\ nodes m' !! 2 = Some node'
       /\ editCount node' = 0 + 0
       /\ proximityCount node' = 0 + 1.
Proof.
  split; [reflexivity |].
  destruct (update_tallies sampleImprobability false sampleNormalizer
              sampleWeighting CT_MATCH 1 2 sampleFresh sampleMemory
              (sampleNode (1 # 2) 1) eq_refl)
    as (m' & node' & Hupdate & Hnode & Hedit & Hprox & _).
  exists m', node'. split; [exact Hupdate |]. split; [exact Hnode |].
  split; [exact Hedit | exact Hprox].
Defined.

Lemma updatePath_frame_and_tallies_witness :
  nodes sampleMemory !! 2 = Some (sampleNode (1 # 2) 1)
  /\ ~ In CT_MATCH [CT_OMISSION; CT_INSERTION; CT_TERMINAL; CT_TRANSPOSITION]
  /\ exists (m' : Memory) (node' : DicNode),
       updatePath sampleImprobability false sampleNormalizer sampleWeighting
         [CT_OMISSION; CT_INSERTION; CT_TERMINAL; CT_TRANSPOSITION]
         1 2 sampleFresh sampleMemory = Some m'
       /\ nodes m' !! 2 = Some node'
       /\ session m' = session sampleMemory
       /\ nodes m' !! 1 = nodes sampleMemory !! 1
       /\ editCount node' = 0 + 3
       /\ inputCursor node' = 1 + 4.
Proof.
  assert (Hnomatch :
    ~ In CT_MATCH [CT_OMISSION; CT_INSERTION; CT_TERMINAL; CT_TRANSPOSITION])
    by (simpl; intros [H | [H | [H | [H | []]]]]; discriminate H).
  split; [reflexivity |]. split; [exact Hnomatch |].
  destruct (updatePath_frame_and_tallies sampleImprobability false sampleNormalizer
              sampleWeighting
              [CT_OMISSION; CT_INSERTION; CT_TERMINAL; CT_TRANSPOSITION]
              1 2 sampleFresh sampleMemory (sampleNode (1 # 2) 1) eq_refl)
    as (m' & node' & Hpath & Hnode & Hsession & Hframe & Hedit & Hcursor).
  exists m', node'. split; [exact Hpath |]. split; [exact Hnode |].
  split; [exact Hsession |]. split; [apply Hframe; discriminate |].
  split; [exact Hedit | exact (Hcursor Hnomatch)].
Defined.

Lemma updatePath_cost_monotone_witness :
  (forall correctionType m0 parent0 node0 inputStateG,
      (0 <= fst (getSpatialCost sampleWeighting correctionType m0 parent0 node0
                   inputStateG))%Q)
  /\ (forall correctionType m0 parent0 node0,
         (0 <= fst (getLanguageCost sampleImprobability sampleWeighting
                      correctionType m0 parent0 node0))%Q)
  /\ (0 < sampleNormalizer (getInputSize (session sampleMemory)))%Q
  /\ nodes sampleMemory !! 2 = Some (sampleNode (1 # 2) 1)
  /\ exists (m' : Memory) (node' : DicNode),
       updatePath sampleImprobability false sampleNormalizer sampleWeighting
         [CT_MATCH; CT_MATCH; CT_TERMINAL] 0 2 sampleFresh sampleMemory = Some m'
       /\ nodes m' !! 2 = Some node'
       /\ (1 # 2 <= accumulatedCost node')%Q.
Proof.
  assert (Hspatial : forall correctionType m0 parent0 node0 inputStateG,
      (0 <= fst (getSpatialCost sampleWeighting correctionType m0 parent0 node0
                   inputStateG))%Q).
  { intros ct m0 p0 c0 st. destruct ct; simpl;
      try destruct (c0 =? 3); simpl; unfold Qle; simpl; lia. }
  assert (Hlanguage : forall correctionType m0 parent0 node0,
      (0 <= fst (getLanguageCost sampleImprobability sampleWeighting
                   correctionType m0 parent0 node0))%Q).
  { intros ct m0 p0 c0. destruct ct; simpl; unfold Qle; simpl; lia. }
  assert (Hnorm : (0 < sampleNormalizer (getInputSize (session sampleMemory)))%Q)
    by reflexivity.
  split; [exact Hspatial |]. split; [exact Hlanguage |]. split; [exact Hnorm |].
  split; [reflexivity |].
  exact (updatePath_cost_monotone sampleImprobability false sampleNormalizer
           sampleWeighting [CT_MATCH; CT_MATCH; CT_TERMINAL] 0 2 sampleFresh
           sampleMemory (sampleNode (1 # 2) 1)
           Hspatial Hlanguage (fun _ => Hnorm) eq_refl).
Defined.

Lemma update_debug_independent_witness :
  nodes sampleMemory !! 2 = Some (sampleNode (1 # 2) 1)
  /\ exists (mDebug mPlain : Memory) (nodeDebug nodePlain : DicNode),
       addCostAndForwardInputIndex sampleImprobability true sampleNormalizer
         sampleWeighting CT_TERMINAL 1 2 sampleFresh sampleMemory = Some mDebug
       /\ sampleUpdate CT_TERMINAL 1 2 sampleFresh sampleMemory = Some mPlain
       /\ nodes mDebug !! 2 = Some nodeDebug
       /\ nodes mPlain !! 2 = Some nodePlain
       /\ bigramCache mDebug = bigramCache mPlain
       /\ accumulatedCost nodeDebug = accumulatedCost nodePlain
       /\ inputCursor nodeDebug = inputCursor nodePlain.
Proof.
  split; [reflexivity |].
  destruct (update_debug_independent sampleImprobability sampleNormalizer
              sampleWeighting CT_TERMINAL 1 2 sampleFresh sampleMemory
              (sampleNode (1 # 2) 1) eq_refl)
    as (mD & mP & nD & nP & HupD & HupP & HnD & HnP & Hcache & _ & _
        & Hacc & Hcur & _).
  exists mD, mP, nD, nP.
  split; [exact HupD |]. split; [exact HupP |]. split; [exact HnD |].
  split; [exact HnP |]. split; [exact Hcache |]. split; [exact Hacc | exact Hcur].
Defined.

Lemma forward_count_and_classification_witness :
  getForwardInputCount CT_INSERTION = 2
  /\ isEditCorrection CT_INSERTION = true.
Proof.
  split; [reflexivity |].
  destruct (forward_count_and_classification sampleWeighting CT_INSERTION
              sampleMemory 2) as (Htwo & _).
  apply Htwo. reflexivity.
Defined.
